(** * A shallow embedding of [main.py]: the completion proxy, the job lookup
      handler and the ObjectId normalisation helper.

    Python values are embedded as a closed variant ([value]); a [dict] is a
    finite map with string keys (Python compares dicts regardless of the
    order of their keys), a [list] is a list.  Python's [str] is embedded as
    [string], one character per code point below 256.  A call that may raise
    returns a [result]; the document store and the HTTP client, which the
    handlers reach through [db] and [httpx], are explicit arguments and every
    call to them is recorded in a log. *)

From Stdlib Require Import ZArith NArith String Ascii List Floats.
From Stdlib Require Strings.Byte.
From stdpp Require Import gmap strings list fin_maps pretty.

Set Warnings "-register-all,-inexact-float".
Open Scope string_scope.

(* ===================================================================== *)
(** ** bson.ObjectId *)
(* ===================================================================== *)

Module bson.

(** An ObjectId wraps the bytes of its [__id] attribute. *)
Abbreviation byte := Byte.byte.

Definition ObjectId : Type := list byte.

#[export] Instance byte_eq_dec : EqDecision byte := Byte.byte_eq_dec.

(** [Py_ISSPACE]: the six ASCII white space characters. *)
Definition Py_ISSPACE (c : ascii) : bool :=
  let n := N_of_ascii c in
  ((n =? 32) || ((9 <=? n) && (n <=? 13)))%N.

(** The value of a hexadecimal digit, in either case. *)
Definition hex_value (c : ascii) : option N :=
  let n := N_of_ascii c in
  if ((48 <=? n) && (n <=? 57))%N then Some (n - 48)%N
  else if ((97 <=? n) && (n <=? 102))%N then Some (n - 87)%N
  else if ((65 <=? n) && (n <=? 70))%N then Some (n - 55)%N
  else None.

(** [bytes.fromhex]: white space is skipped before each pair of digits;
    [None] stands for [ValueError]. *)
Fixpoint bytes_fromhex (s : string) : option (list byte) :=
  match s with
  | EmptyString => Some []
  | String c s' =>
      if Py_ISSPACE c then bytes_fromhex s'
      else
        match hex_value c, s' with
        | Some top, String d s'' =>
            match hex_value d with
            | Some bot =>
                match Byte.of_N (top * 16 + bot), bytes_fromhex s'' with
                | Some b, Some bs => Some (b :: bs)
                | _, _ => None
                end
            | None => None
            end
        | _, _ => None
        end
  end.

(** [ObjectId(oid)] for [oid : str]: 24 characters accepted by
    [bytes.fromhex]; [None] stands for [InvalidId]. *)
Definition ObjectId_init (oid : string) : option ObjectId :=
  if decide (String.length oid = 24%nat) then bytes_fromhex oid else None.

(** One lower-case hexadecimal digit, [Py_hexdigits[n]]. *)
Definition hexdigit (n : N) : ascii :=
  if (n <? 10)%N then ascii_of_N (48 + n) else ascii_of_N (87 + n).

(** [binascii.hexlify(..).decode()]. *)
Fixpoint hexlify (bs : list byte) : string :=
  match bs with
  | [] => EmptyString
  | b :: bs' =>
      String (hexdigit (N.shiftr (Byte.to_N b) 4))
        (String (hexdigit (N.land (Byte.to_N b) 15)) (hexlify bs'))
  end.

(** [str(oid)]. *)
Definition ObjectId_str (o : ObjectId) : string := hexlify o.

(** The characters [0-9a-f]. *)
Definition is_lower_hex (c : ascii) : bool :=
  let n := N_of_ascii c in
  (((48 <=? n) && (n <=? 57)) || ((97 <=? n) && (n <=? 102)))%N.

Fixpoint string_forallb (p : ascii → bool) (s : string) : bool :=
  match s with
  | EmptyString => true
  | String c s' => p c && string_forallb p s'
  end.

End bson.
Export bson.

(* ===================================================================== *)
(** ** Python values and exceptions *)
(* ===================================================================== *)

(** The values a decoded BSON document or a JSON body is made of. *)
Inductive value : Type :=
| PyNone
| PyBool (b : bool)
| PyInt (n : Z)
| PyFloat (f : float)
| PyStr (s : string)
| PyDatetime (millis : Z)
| PyObjectId (o : ObjectId)
| PyList (l : list value)
| PyDict (d : gmap string value).

Inductive exn : Type :=
| HTTPException (status_code : Z) (detail : string)
| RequestError (msg : string)     (* httpx.RequestError and its subclasses *)
| KeyError (key : string)
| OtherException (msg : string).  (* any other [Exception], with its [str] *)

Inductive result (A : Type) : Type :=
| Return (a : A)
| Raise (e : exn).
Arguments Return {A} a.
Arguments Raise {A} e.

(** Sequencing: an exception raised by the first computation propagates. *)
#[export] Instance result_ret : MRet result := λ A a, Return a.
#[export] Instance result_bind : MBind result := λ A B k r,
  match r with
  | Return a => k a
  | Raise e => Raise e
  end.

(** [bool(v)]. *)
Definition truthy (v : value) : bool :=
  match v with
  | PyNone => false
  | PyBool b => b
  | PyInt n => negb (n =? 0)%Z
  | PyFloat f => negb (PrimFloat.eqb f 0)
  | PyStr s => negb (String.length s =? 0)%nat
  | PyDatetime _ => true
  | PyObjectId _ => true
  | PyList l => negb (length l =? 0)%nat
  | PyDict d => negb (size d =? 0)%nat
  end.

(** [v[key]]. *)
Definition getitem (v : value) (key : string) : result value :=
  match v with
  | PyDict d =>
      match d !! key with
      | Some x => Return x
      | None => Raise (KeyError key)
      end
  | _ => Raise (OtherException "object is not subscriptable")
  end.

(** [v.get(key, default)]. *)
Definition get (v : value) (key : string) (default : value) : result value :=
  match v with
  | PyDict d =>
      match d !! key with
      | Some x => Return x
      | None => Return default
      end
  | _ => Raise (OtherException "object has no attribute 'get'")
  end.

(* ===================================================================== *)
(** ** convert_objectid *)
(* ===================================================================== *)

Fixpoint convert_objectid (data : value) : value :=
  match data with
  | PyList l => PyList (convert_objectid <$> l)
  | PyDict d => PyDict (convert_objectid <$> d)
  | PyObjectId o => PyStr (ObjectId_str o)
  | _ => data
  end.

(** The call stack of [convert_objectid]: [fuel] bounds the number of nested
    calls, and [None] stands for a recursion that was cut off.  The list
    comprehension visits the items in order, the dict comprehension inserts
    one converted entry per item. *)
Definition dict_comprehension (f : value → option value)
    (d : gmap string value) : option (gmap string value) :=
  map_fold (λ key v acc, y ← f v; d' ← acc; Some (<[key:=y]> d')) (Some ∅) d.

Fixpoint convert_objectid_fuel (fuel : nat) (data : value) : option value :=
  match fuel with
  | O => None
  | S fuel' =>
      match data with
      | PyList l => PyList <$> mapM (convert_objectid_fuel fuel') l
      | PyDict d => PyDict <$> dict_comprehension (convert_objectid_fuel fuel') d
      | PyObjectId o => Some (PyStr (ObjectId_str o))
      | _ => Some data
      end
  end.

(** Nesting depth of a document: scalars have depth 0. *)
Fixpoint depth (data : value) : nat :=
  match data with
  | PyList l => S (max_list (depth <$> l))
  | PyDict d => S (map_fold (λ _ v acc, depth v `max` acc) 0%nat d)
  | _ => 0
  end.

(** A document without any ObjectId, at any level. *)
Fixpoint no_objectid (data : value) : Prop :=
  match data with
  | PyList l => foldr (λ v acc, no_objectid v ∧ acc) True l
  | PyDict d => map_fold (λ _ v acc, no_objectid v ∧ acc) True d
  | PyObjectId _ => False
  | _ => True
  end.

(** Scalars other than ObjectId: everything the three [isinstance] tests
    reject. *)
Definition other_scalar (data : value) : Prop :=
  match data with
  | PyList _ | PyDict _ | PyObjectId _ => False
  | _ => True
  end.

(* ===================================================================== *)
(** ** What FastAPI sends for the outcome of a handler *)
(* ===================================================================== *)

(** [datetime.isoformat()] of the naive UTC datetime that lies [millis]
    milliseconds after the epoch, which is how a BSON date is decoded: the
    date of the proleptic Gregorian calendar, the time of day, and the
    microseconds when they are not zero. *)
Fixpoint zeros (k : nat) (s : string) : string :=
  match k with
  | O => s
  | S k' => String "0" (zeros k' s)
  end.

Definition zfill (width : nat) (n : Z) : string :=
  let s := pretty n in zeros (width - String.length s) s.

Definition civil_from_days (days : Z) : Z * Z * Z :=
  let z := (days + 719468)%Z in
  let era := (z `div` 146097)%Z in
  let doe := (z - era * 146097)%Z in
  let yoe :=
    ((doe - doe `div` 1460 + doe `div` 36524 - doe `div` 146096)
       `div` 365)%Z in
  let doy := (doe - (365 * yoe + yoe `div` 4 - yoe `div` 100))%Z in
  let mp := ((5 * doy + 2) `div` 153)%Z in
  let d := (doy - (153 * mp + 2) `div` 5 + 1)%Z in
  let m := (if mp <? 10 then mp + 3 else mp - 9)%Z in
  let y := (yoe + era * 400 + (if m <=? 2 then 1 else 0))%Z in
  (y, m, d).

Definition isoformat (millis : Z) : string :=
  let '(y, m, d) := civil_from_days (millis `div` 86400000)%Z in
  let ms := (millis `mod` 86400000)%Z in
  let us := ((ms `mod` 1000) * 1000)%Z in
  zfill 4 y ++ "-" ++ zfill 2 m ++ "-" ++ zfill 2 d ++ "T"
  ++ zfill 2 (ms `div` 3600000)%Z ++ ":"
  ++ zfill 2 ((ms `div` 60000) `mod` 60)%Z ++ ":"
  ++ zfill 2 ((ms `div` 1000) `mod` 60)%Z
  ++ (if (us =? 0)%Z then EmptyString else "." ++ zfill 6 us).

(** The content of the JSON response for a returned value: FastAPI passes
    the value through [jsonable_encoder], which writes a datetime in ISO
    format and raises [ValueError] for an ObjectId, and [JSONResponse]
    renders the outcome with [json.dumps(..., allow_nan=False)], which
    raises [ValueError] for a float that is infinite or not a number.
    [None] stands for either failure. *)
Fixpoint json_content (v : value) : option value :=
  match v with
  | PyFloat f => if PrimFloat.is_finite f then Some v else None
  | PyDatetime millis => Some (PyStr (isoformat millis))
  | PyObjectId _ => None
  | PyList l => PyList <$> mapM json_content l
  | PyDict d => PyDict <$> dict_comprehension json_content d
  | _ => Some v
  end.


(** A returned value that can be rendered is sent with status 200; an
    [HTTPException] is sent with its own status code and
    [{"detail": detail}]; any other exception, the [ValueError] of a
    returned value that cannot be rendered included, ends in the server's
    plain 500 answer. *)
Definition http_status (r : result value) : Z :=
  match r with
  | Return v =>
      match json_content v with
      | Some _ => 200
      | None => 500
      end
  | Raise (HTTPException status _) => status
  | Raise _ => 500
  end.

Definition http_body (r : result value) : value :=
  match r with
  | Return v =>
      match json_content v with
      | Some content => content
      | None => PyStr "Internal Server Error"
      end
  | Raise (HTTPException _ detail) => PyDict {[ "detail" := PyStr detail ]}
  | Raise _ => PyStr "Internal Server Error"
  end.

(* ===================================================================== *)
(** ** Health check *)
(* ===================================================================== *)

Definition health_check : Z * value :=
  (200%Z, PyDict {[ "status" := PyStr "MongoDB connected successfully" ]}).

(* ===================================================================== *)
(** ** Models *)
(* ===================================================================== *)

Record Message := { role : string; content : string }.

Record OpenAIRequest := {
  model : string;
  max_tokens : Z;
  messages : list Message
}.

(** Building an [OpenAIRequest] from a client body: a field the client left
    out takes the default of the class. *)
Definition OpenAIRequest_init (body_model : option string)
    (body_max_tokens : option Z) (body_messages : list Message)
    : OpenAIRequest :=
  {| model := default "gpt-4o" body_model;
     max_tokens := default 1000%Z body_max_tokens;
     messages := body_messages |}.

(* ===================================================================== *)
(** ** OpenAI proxy endpoint *)
(* ===================================================================== *)

(** The arguments of [client.post] on a client built with [timeout]. *)
Record Post := {
  url : option string;
  headers : gmap string string;
  post_json : value;
  timeout : float
}.

(** What the handler reads of an [httpx.Response]: [Response_json] is the
    outcome of calling [response.json()]. *)
Record Response := {
  status_code : Z;
  text : string;
  Response_json : result value
}.

(** [str(e)].  [HTTPException_str] is the [__str__] of the installed
    Starlette's [HTTPException]. *)
Definition exn_str (HTTPException_str : Z → string → string) (e : exn)
    : string :=
  match e with
  | HTTPException status detail => HTTPException_str status detail
  | RequestError msg => msg
  | KeyError key => "'" ++ key ++ "'"
  | OtherException msg => msg
  end.

(** [OPENAI_API_KEY] and [OPENAI_API_URL] are the two settings read at start
    up ([os.getenv] gives [None] for an unset variable). *)
Definition openai_headers (OPENAI_API_KEY : string) : gmap string string :=
  {[ "Authorization" := "Bearer " ++ OPENAI_API_KEY;
     "Content-Type" := "application/json" ]}.

Definition openai_payload (request : OpenAIRequest) : value :=
  PyDict
    {[ "model" := PyStr (model request);
       "messages" :=
         PyList ((λ msg, PyDict {[ "role" := PyStr (role msg);
                                   "content" := PyStr (content msg) ]})
                   <$> messages request);
       "max_tokens" := PyInt (max_tokens request);
       "temperature" := PyFloat 0.7 ]}.

(** The one outbound request of the handler. *)
Definition openai_post (OPENAI_API_KEY : string)
    (OPENAI_API_URL : option string) (request : OpenAIRequest) : Post :=
  {| url := OPENAI_API_URL;
     headers := openai_headers OPENAI_API_KEY;
     post_json := openai_payload request;
     timeout := 60 |}.

(** [client_post] is the HTTP client together with the network and the
    upstream service.  The second component of the result lists the outbound
    requests that were issued. *)
Definition openai_proxy (OPENAI_API_KEY : string)
    (OPENAI_API_URL : option string)
    (client_post : Post → result Response)
    (HTTPException_str : Z → string → string)
    (request : OpenAIRequest) : result value * list Post :=
  let call := openai_post OPENAI_API_KEY OPENAI_API_URL request in
  let try_block : result value :=
    response ← client_post call;
    if negb (status_code response =? 200)%Z
    then Raise (HTTPException (status_code response)
                  ("OpenAI API error: " ++ text response))
    else Response_json response in
  (match try_block with
   | Return body => Return body
   | Raise (RequestError msg) =>
       Raise (HTTPException 500 ("Failed to connect to OpenAI API: " ++ msg))
   | Raise e =>
       Raise (HTTPException 500
                ("Internal server error: " ++ exn_str HTTPException_str e))
   end,
   [call]).

(* ===================================================================== *)
(** ** The document store *)
(* ===================================================================== *)

(** Modelled from the spec: the module [database] that provides [db] is not
    among the sources.  The store must support "find one document by
    identifier": [jobs] holds the documents of the collection, [find_one] on
    the filter [{"_id": oid}] gives the first document whose [_id] field is
    that identifier and [None] when there is none.  [find_one_log] records
    the queries issued so far. *)
Record database := {
  jobs : list value;
  find_one_log : list ObjectId
}.

Definition matches_id (oid : ObjectId) (doc : value) : bool :=
  match doc with
  | PyDict d =>
      match d !! "_id" with
      | Some (PyObjectId o) => bool_decide (o = oid)
      | _ => false
      end
  | _ => false
  end.

Definition find_one (oid : ObjectId) (db : database) : value * database :=
  (match List.find (matches_id oid) (jobs db) with
   | Some doc => doc
   | None => PyNone
   end,
   {| jobs := jobs db; find_one_log := find_one_log db ++ [oid] |}).

(* ===================================================================== *)
(** ** Job details endpoint *)
(* ===================================================================== *)

Definition get_job_details (_id : string) (db : database)
    : result value * database :=
  match ObjectId_init _id with
  | None => (Raise (HTTPException 400 "Invalid job ID"), db)
  | Some object_id =>
      let '(job, db) := find_one object_id db in
      if negb (truthy job)
      then (Raise (HTTPException 404 "Job not found"), db)
      else
        let job := convert_objectid job in
        (job_id ← getitem job "_id";
         title ← get job "jobTitle" PyNone;
         description ← get job "plainTextJobDescription" PyNone;
         questions ← get job "questions" (PyList []);
         Return (PyDict {[ "job_id" := job_id;
                           "title" := title;
                           "description" := description;
                           "questions" := questions ]}),
         db)
  end.

(* ===================================================================== *)
(** ** Environment config *)
(* ===================================================================== *)

(** The module level code that runs once when the application is loaded:
    [environ] is the process environment after [load_dotenv()],
    [os.getenv] gives [None] for a variable that is not set, and
    [not OPENAI_API_KEY] holds for [None] and for the empty string.  The
    outcome is the pair of [OPENAI_API_KEY] and [OPENAI_API_URL], or the
    [RuntimeError] that stops the start up. *)
Definition load_config (environ : gmap string string)
    : result (string * option string) :=
  let OPENAI_API_KEY := environ !! "OPENAI_API_KEY" in
  let OPENAI_API_URL := environ !! "OPENAI_API_URL" in
  match OPENAI_API_KEY with
  | None =>
      Raise (OtherException
               "❌ Missing OPENAI_API_KEY in environment variables")
  | Some key =>
      if (String.length key =? 0)%nat
      then Raise (OtherException
                    "❌ Missing OPENAI_API_KEY in environment variables")
      else Return (key, OPENAI_API_URL)
  end.

(** The strings that the route [/jobs/{_id}] hands to the handler as
    [_id]: one segment of the path, which is not empty and holds no
    slash.  A request whose path has no such segment is answered by the
    router and does not reach the handler. *)
Definition path_parameter (s : string) : bool :=
  negb (String.length s =? 0)%nat
  && string_forallb (λ c, negb (Ascii.eqb c "/")) s.

(** The characters [0-9a-fA-F]. *)
Definition is_hexdigit (c : ascii) : bool :=
  match hex_value c with
  | Some _ => true
  | None => false
  end.

(* ===================================================================== *)
(** ** Sample inputs *)
(* ===================================================================== *)

(** An upstream that answers every request with 429 and the body
    [rate limited], which is not JSON. *)
Definition rate_limited : Response :=
  {| status_code := 429;
     text := "rate limited";
     Response_json := Raise (OtherException "Expecting value: line 1 column 1 (char 0)") |}.

(** An upstream that answers 200 with a body that is not JSON. *)
Definition not_json : Response :=
  {| status_code := 200;
     text := "<html>Bad gateway</html>";
     Response_json := Raise (OtherException "Expecting value: line 1 column 1 (char 0)") |}.

(** An upstream that answers 200 with the JSON body [{"id": "abc"}]. *)
Definition dquote : string := String (ascii_of_nat 34) EmptyString.

Definition completion_abc : Response :=
  {| status_code := 200;
     text := "{" ++ dquote ++ "id" ++ dquote ++ ":" ++ dquote ++ "abc"
               ++ dquote ++ "}";
     Response_json := Return (PyDict {[ "id" := PyStr "abc" ]}) |}.

(** The [__str__] of [HTTPException] in current Starlette releases. *)
Definition starlette_str (status : Z) (detail : string) : string :=
  pretty status ++ ": " ++ detail.

Definition sample_request : OpenAIRequest :=
  OpenAIRequest_init None None [ {| role := "user"; content := "Hello" |} ].

Definition sample_oid : ObjectId :=
  [Byte.x50; Byte.x7f; Byte.x1f; Byte.x77; Byte.xbc; Byte.xf8;
   Byte.x6c; Byte.xd7; Byte.x99; Byte.x43; Byte.x90; Byte.x11].

(** The stored record of the specification's example, and one that lacks
    every optional field. *)
Definition sample_job : gmap string value :=
  {[ "_id" := PyObjectId sample_oid;
     "jobTitle" := PyStr "Engineer";
     "plainTextJobDescription" := PyStr "Build things";
     "questions" := PyList [PyDict {[ "questionText" := PyStr "Why?" ]}] ]}.

Definition sample_db : database :=
  {| jobs := [PyDict sample_job]; find_one_log := [] |}.

Definition empty_db : database := {| jobs := []; find_one_log := [] |}.




Definition sample_environ : gmap string string :=
  {[ "OPENAI_API_KEY" := "sk-test" ]}.

(* ===================================================================== *)
(** * Properties of [convert_objectid] *)
(* ===================================================================== *)

Section Documents.

Local Open Scope nat_scope.
Implicit Types (data v : value) (l : list value) (d : gmap string value).

Lemma depth_list_elem l v : v ∈ l → depth v < depth (PyList l).
Proof.
  intros Hin. cbn [depth].
  assert (depth v ≤ max_list (depth <$> l)); [|lia].
  induction Hin as [v l|v w l _ IH]; rewrite fmap_cons; cbn [max_list].
  - apply Nat.le_max_l.
  - etrans; [apply IH|apply Nat.le_max_r].
Qed.

Lemma depth_dict_lookup d key v :
  d !! key = Some v → depth v < depth (PyDict d).
Proof.
  cbn [depth]. intros Hkey.
  assert (depth v ≤ map_fold (λ _ x acc, depth x `max` acc) 0 d); [|lia].
  revert key v Hkey.
  apply (map_fold_weak_ind
           (λ r m, ∀ key v, m !! key = Some v → depth v ≤ r)).
  - intros key v. by rewrite lookup_empty.
  - intros i x m r Hi IH key v.
    destruct (decide (i = key)) as [->|Hne].
    + rewrite lookup_insert_eq. intros [= ->]. lia.
    + rewrite lookup_insert_ne by done. intros Hv.
      specialize (IH _ _ Hv). lia.
Qed.

(** Induction over documents: the hypothesis for a container covers each of
    its members. *)
Lemma value_nested_ind (P : value → Prop) :
  (∀ data, other_scalar data → P data) →
  (∀ o, P (PyObjectId o)) →
  (∀ l, Forall P l → P (PyList l)) →
  (∀ d, map_Forall (λ _, P) d → P (PyDict d)) →
  ∀ data, P data.
Proof.
  intros Hscalar Hoid Hlist Hdict data.
  remember (depth data) as n eqn:Hn.
  revert data Hn. induction (lt_wf n) as [n _ IH]. intros data ->.
  destruct data; try (by apply Hscalar); [by apply Hoid| |].
  - apply Hlist, Forall_forall. intros v Hv.
    eapply IH; [|reflexivity]. by apply depth_list_elem.
  - apply Hdict. intros key v Hv.
    eapply IH; [|reflexivity]. by eapply depth_dict_lookup.
Qed.

Lemma no_objectid_list l :
  no_objectid (PyList l) ↔ Forall no_objectid l.
Proof.
  cbn [no_objectid]. induction l as [|v l IH]; cbn [foldr].
  - split; [constructor|done].
  - rewrite Forall_cons. by rewrite IH.
Qed.

Lemma no_objectid_dict d :
  no_objectid (PyDict d) ↔ map_Forall (λ _, no_objectid) d.
Proof.
  cbn [no_objectid].
  apply (map_fold_weak_ind
           (λ r m, r ↔ map_Forall (λ _, no_objectid) m)).
  - split; [intros _; apply map_Forall_empty|done].
  - intros i x m r Hi IH. rewrite map_Forall_insert by done. by rewrite IH.
Qed.

Lemma mapM_total (f : value → option value) (g : value → value) l :
  Forall (λ v, f v = Some (g v)) l → mapM f l = Some (g <$> l).
Proof.
  induction 1 as [|v l Hv _ IH]; [done|].
  cbn [mapM fmap list_fmap]. rewrite Hv, IH. done.
Qed.

Lemma dict_comprehension_total (f : value → option value)
    (g : value → value) d :
  map_Forall (λ _ v, f v = Some (g v)) d →
  dict_comprehension f d = Some (g <$> d).
Proof.
  unfold dict_comprehension.
  apply (map_fold_weak_ind
           (λ r m, map_Forall (λ _ v, f v = Some (g v)) m →
                   r = Some (g <$> m))).
  - intros _. by rewrite fmap_empty.
  - intros i x m r Hi IH [Hx Hm]%map_Forall_insert; [|done].
    rewrite Hx, (IH Hm). cbn. by rewrite fmap_insert.
Qed.

Lemma convert_objectid_fuel_enough fuel data :
  depth data < fuel →
  convert_objectid_fuel fuel data = Some (convert_objectid data).
Proof.
  revert data. induction fuel as [|fuel IH]; intros data Hfuel; [lia|].
  destruct data; try done.
  - cbn [convert_objectid_fuel convert_objectid].
    rewrite (mapM_total _ convert_objectid); [done|].
    apply Forall_forall. intros v Hv. apply IH.
    apply depth_list_elem in Hv. lia.
  - cbn [convert_objectid_fuel convert_objectid].
    rewrite (dict_comprehension_total _ convert_objectid); [done|].
    intros key v Hv. apply IH.
    apply depth_dict_lookup in Hv. lia.
Qed.

Lemma convert_objectid_no_objectid data :
  no_objectid (convert_objectid data).
Proof.
  induction data as [data Hs|o|l IH|d IH] using value_nested_ind.
  - by destruct data.
  - exact I.
  - cbn [convert_objectid]. apply no_objectid_list, Forall_fmap.
    eapply Forall_impl; [exact IH|done].
  - cbn [convert_objectid]. apply no_objectid_dict, map_Forall_fmap.
    intros key v Hv. exact (IH key v Hv).
Qed.

Lemma convert_objectid_id data :
  no_objectid data → convert_objectid data = data.
Proof.
  induction data as [data Hs|o|l IH|d IH] using value_nested_ind.
  - by destruct data.
  - intros [].
  - intros Hl%no_objectid_list. cbn [convert_objectid]. f_equal.
    rewrite <-(list_fmap_id l) at 2. apply list_fmap_ext.
    intros i v Hv. rewrite Forall_lookup in IH, Hl. by eapply IH, Hl.
  - intros Hd%no_objectid_dict. cbn [convert_objectid]. f_equal.
    rewrite <-(map_fmap_id d) at 2. apply map_fmap_ext.
    intros key v Hv. by eapply IH, Hd.
Qed.




End Documents.




(** C6: [convert_objectid] maps a list to the list of the images of its
    elements, in the same order and of the same length; a dict to a dict
    with the same keys, each value converted; an ObjectId to its string
    form; and leaves any other scalar as it is. *)
Theorem C6_convert_objectid_by_shape :
  (∀ l : list value, ∃ l' : list value,
      convert_objectid (PyList l) = PyList l' ∧
      length l' = length l ∧
      ∀ i : nat, l' !! i = convert_objectid <$> l !! i) ∧
  (∀ d : gmap string value, ∃ d' : gmap string value,
      convert_objectid (PyDict d) = PyDict d' ∧
      dom d' = dom d ∧
      ∀ key : string, d' !! key = convert_objectid <$> d !! key) ∧
  (∀ o : ObjectId, convert_objectid (PyObjectId o) = PyStr (ObjectId_str o)) ∧
  (∀ data : value, other_scalar data → convert_objectid data = data).
Proof.
  repeat split.
  - intros l. exists (convert_objectid <$> l). split; [done|].
    split; [apply length_fmap|]. intros i. apply list_lookup_fmap.
  - intros d. exists (convert_objectid <$> d). split; [done|].
    split; [apply dom_fmap_L|]. intros key. apply lookup_fmap.
  - intros data Hs. by destruct data.
Qed.

Lemma C6_convert_objectid_by_shape_witness :
  other_scalar (PyInt 3) ∧ convert_objectid (PyInt 3) = PyInt 3.
Proof.
  split; [exact I|].
  apply (proj2 (proj2 (proj2 C6_convert_objectid_by_shape))). exact I.
Defined.

(** C7: converting a second time changes nothing, and a document without
    any ObjectId is returned as it is. *)
Theorem C7_convert_objectid_idempotent :
  (∀ data : value,
      convert_objectid (convert_objectid data) = convert_objectid data) ∧
  (∀ data : value, no_objectid data → convert_objectid data = data).
Proof.
  split.
  - intros data. apply convert_objectid_id, convert_objectid_no_objectid.
  - apply convert_objectid_id.
Qed.

Lemma C7_convert_objectid_idempotent_witness :
  no_objectid (PyList [PyStr "a"; PyInt 1]) ∧
  convert_objectid (PyList [PyStr "a"; PyInt 1])
  = PyList [PyStr "a"; PyInt 1].
Proof.
  split; [by cbn|].
  apply (proj2 C7_convert_objectid_idempotent). by cbn.
Defined.

(** C8: the recursion of [convert_objectid] ends on every document: a call
    stack one deeper than the nesting depth of the document is enough, any
    deeper one gives the same result, and that result is the value of the
    structurally recursive [convert_objectid]. *)
Theorem C8_convert_objectid_terminates (data : value) :
  convert_objectid_fuel (S (depth data)) data = Some (convert_objectid data) ∧
  ∀ fuel : nat,
    (depth data < fuel)%nat →
    convert_objectid_fuel fuel data = Some (convert_objectid data).
Proof.
  split; [apply convert_objectid_fuel_enough; lia|].
  intros fuel. apply convert_objectid_fuel_enough.
Qed.

Lemma C8_convert_objectid_terminates_witness :
  (depth (PyDict sample_job) < 5)%nat ∧
  convert_objectid_fuel 5 (PyDict sample_job)
  = Some (convert_objectid (PyDict sample_job)).
Proof.
  split; [vm_compute; lia|].
  apply (proj2 (C8_convert_objectid_terminates (PyDict sample_job)) 5%nat).
  vm_compute; lia.
Defined.

(* ===================================================================== *)
(** * Properties of the job details endpoint *)
(* ===================================================================== *)

Section JobDetails.

Implicit Types (db : database) (oid : ObjectId) (R : gmap string value).

Lemma get_dict R key dflt :
  get (PyDict R) key dflt = Return (default dflt (R !! key)).
Proof. cbn. by destruct (R !! key). Qed.

(** A record that [find_one] returns carries the identifier asked for. *)
Lemma find_one_found oid db R :
  (find_one oid db).1 = PyDict R → R !! "_id" = Some (PyObjectId oid).
Proof.
  unfold find_one. cbn [fst].
  destruct (List.find (matches_id oid) (jobs db)) as [doc|] eqn:Hfind; [|done].
  intros ->. apply find_some in Hfind as [_ Hmatch].
  unfold matches_id in Hmatch.
  destruct (R !! "_id") as [[]|]; try done.
  apply bool_decide_eq_true in Hmatch. by subst.
Qed.

Lemma find_one_logged oid db :
  (find_one oid db).2
  = {| jobs := jobs db; find_one_log := find_one_log db ++ [oid] |}.
Proof. done. Qed.

Lemma truthy_record R v : R !! "_id" = Some v → truthy (PyDict R) = true.
Proof.
  intros Hid. cbn [truthy].
  destruct (size R) eqn:Hsize; [|done].
  apply map_size_empty_iff in Hsize. subst. by rewrite lookup_empty in Hid.
Qed.

(** The whole outcome of a lookup that finds the record [R]. *)
Lemma get_job_details_found _id oid db R :
  ObjectId_init _id = Some oid →
  (find_one oid db).1 = PyDict R →
  get_job_details _id db
  = (Return (PyDict
       {[ "job_id" := PyStr (ObjectId_str oid);
          "title" := default PyNone (convert_objectid <$> R !! "jobTitle");
          "description" :=
            default PyNone
              (convert_objectid <$> R !! "plainTextJobDescription");
          "questions" :=
            default (PyList []) (convert_objectid <$> R !! "questions") ]}),
     (find_one oid db).2).
Proof.
  intros Hinit Hfound. pose proof (find_one_found _ _ _ Hfound) as Hid.
  unfold get_job_details. rewrite Hinit.
  destruct (find_one oid db) as [job db'] eqn:Hquery.
  cbn [fst snd] in *. subst job.
  rewrite (truthy_record _ _ Hid). cbn [negb convert_objectid].
  rewrite !get_dict, !lookup_fmap. cbn [getitem].
  rewrite lookup_fmap, Hid. done.
Qed.

End JobDetails.

(** C2: an identifier that [ObjectId] rejects is answered with 400 and
    "Invalid job ID", and the store is left as it was: no query is issued. *)
Theorem C2_invalid_id_no_query (_id : string) (db : database) :
  ObjectId_init _id = None →
  (get_job_details _id db).1 = Raise (HTTPException 400 "Invalid job ID") ∧
  http_status (get_job_details _id db).1 = 400%Z ∧
  http_body (get_job_details _id db).1
  = PyDict {[ "detail" := PyStr "Invalid job ID" ]} ∧
  (get_job_details _id db).2 = db ∧
  find_one_log (get_job_details _id db).2 = find_one_log db.
Proof.
  intros Hinit. unfold get_job_details. by rewrite Hinit.
Qed.

Lemma C2_invalid_id_no_query_witness :
  ObjectId_init "not-a-valid-id" = None ∧
  http_status (get_job_details "not-a-valid-id" sample_db).1 = 400%Z ∧
  find_one_log (get_job_details "not-a-valid-id" sample_db).2 = [].
Proof.
  split; [reflexivity|].
  pose proof (C2_invalid_id_no_query "not-a-valid-id" sample_db eq_refl)
    as (_ & Hstatus & _ & _ & Hlog).
  split; [exact Hstatus|exact Hlog].
Defined.




(** C4: when the lookup of a well-formed identifier finds no record, the
    answer is 404 with "Job not found"; the handler raises and returns no
    body. *)
Theorem C4_missing_job_not_found (_id : string) (oid : ObjectId)
    (db : database) :
  ObjectId_init _id = Some oid →
  (find_one oid db).1 = PyNone →
  (get_job_details _id db).1 = Raise (HTTPException 404 "Job not found") ∧
  http_status (get_job_details _id db).1 = 404%Z ∧
  http_body (get_job_details _id db).1
  = PyDict {[ "detail" := PyStr "Job not found" ]} ∧
  (∀ body : value, (get_job_details _id db).1 ≠ Return body) ∧
  find_one_log (get_job_details _id db).2 = (find_one_log db ++ [oid])%list.
Proof.
  intros Hinit Hfound. unfold get_job_details. rewrite Hinit.
  destruct (find_one oid db) as [job db'] eqn:Hquery.
  pose proof (find_one_logged oid db) as Hlog. rewrite Hquery in Hlog.
  cbn [fst snd] in *. subst. done.
Qed.

Lemma C4_missing_job_not_found_witness :
  ObjectId_init "507f1f77bcf86cd799439011" = Some sample_oid ∧
  (find_one sample_oid empty_db).1 = PyNone ∧
  http_status (get_job_details "507f1f77bcf86cd799439011" empty_db).1
  = 404%Z.
Proof.
  split; [reflexivity|]. split; [reflexivity|].
  exact (proj1 (proj2 (C4_missing_job_not_found "507f1f77bcf86cd799439011"
                         sample_oid empty_db eq_refl eq_refl))).
Defined.

Lemma hexlify_lower_hex (bs : list byte) :
  string_forallb is_lower_hex (hexlify bs) = true.
Proof.
  induction bs as [|b bs IH]; [done|].
  cbn [hexlify string_forallb]. rewrite IH.
  by destruct b.
Qed.

(** C10: the [job_id] of a successful answer is the string form of the
    ObjectId built from the path, which is lower-case hexadecimal; it is not
    always the path string itself, as for an identifier written with
    upper-case digits. *)
Theorem C10_job_id_is_canonical_form :
  (∀ (_id : string) (oid : ObjectId) (db : database)
     (R : gmap string value),
      ObjectId_init _id = Some oid →
      (find_one oid db).1 = PyDict R →
      ∃ body : value,
        (get_job_details _id db).1 = Return body ∧
        getitem body "job_id" = Return (PyStr (ObjectId_str oid)) ∧
        string_forallb is_lower_hex (ObjectId_str oid) = true) ∧
  (∃ (_id : string) (db : database) (body : value),
      (get_job_details _id db).1 = Return body ∧
      getitem body "job_id" ≠ Return (PyStr _id)).
Proof.
  split.
  - intros _id oid db R Hinit Hfound. eexists. split.
    + by rewrite (get_job_details_found _ _ _ _ Hinit Hfound).
    + split; [done|apply hexlify_lower_hex].
  - exists "507F1F77BCF86CD799439011", sample_db. eexists.
    split; [vm_compute; reflexivity|].
    vm_compute. intros [=].
Qed.

Lemma C10_job_id_is_canonical_form_witness :
  ∃ body : value,
    (get_job_details "507F1F77BCF86CD799439011" sample_db).1 = Return body ∧
    getitem body "job_id" = Return (PyStr "507f1f77bcf86cd799439011") ∧
    string_forallb is_lower_hex "507f1f77bcf86cd799439011" = true.
Proof.
  exact (proj1 C10_job_id_is_canonical_form "507F1F77BCF86CD799439011"
           sample_oid sample_db sample_job eq_refl eq_refl).
Defined.

(* ===================================================================== *)
(** * Properties of the OpenAI proxy endpoint *)
(* ===================================================================== *)

Section Proxy.

Variables (OPENAI_API_KEY : string) (OPENAI_API_URL : option string).
Variable client_post : Post → result Response.
Variable HTTPException_str : Z → string → string.

Local Abbreviation proxy :=
  (openai_proxy OPENAI_API_KEY OPENAI_API_URL client_post HTTPException_str).
Local Abbreviation post := (openai_post OPENAI_API_KEY OPENAI_API_URL).



(** The [HTTPException] raised for an upstream error is itself caught by
    [except Exception]. *)
Lemma openai_proxy_upstream_error request response :
  client_post (post request) = Return response →
  status_code response ≠ 200%Z →
  (proxy request).1
  = Raise (HTTPException 500
      ("Internal server error: "
       ++ HTTPException_str (status_code response)
            ("OpenAI API error: " ++ text response))).
Proof.
  intros Hpost Hstatus. unfold openai_proxy.
  cbn [fst]. rewrite Hpost. cbn.
  by rewrite (proj2 (Z.eqb_neq _ _) Hstatus).
Qed.

Lemma openai_proxy_json_error request response e :
  client_post (post request) = Return response →
  status_code response = 200%Z →
  Response_json response = Raise e →
  (∀ msg, e ≠ RequestError msg) →
  (proxy request).1
  = Raise (HTTPException 500
      ("Internal server error: " ++ exn_str HTTPException_str e)).
Proof.
  intros Hpost Hstatus Hjson Hclass. unfold openai_proxy.
  cbn [fst]. rewrite Hpost. cbn. rewrite Hstatus, Hjson. cbn.
  destruct e; try done. by destruct (Hclass msg).
Qed.

End Proxy.

(** C1, on the code as written: for an upstream that answers 429 with the
    body [rate limited], the handler does raise an [HTTPException] with
    status 429, but inside the [try] block, where [except Exception] catches
    it; the client receives status 500, not 429. *)
Theorem C1_upstream_status_replaced_by_500 (OPENAI_API_KEY : string)
    (OPENAI_API_URL : option string)
    (HTTPException_str : Z → string → string) (request : OpenAIRequest) :
  let outcome :=
    (openai_proxy OPENAI_API_KEY OPENAI_API_URL (λ _, Return rate_limited)
       HTTPException_str request).1 in
  outcome
  = Raise (HTTPException 500
      ("Internal server error: "
       ++ HTTPException_str 429%Z "OpenAI API error: rate limited")) ∧
  http_status outcome = 500%Z ∧
  http_status outcome ≠ status_code rate_limited.
Proof.
  cbn zeta.
  rewrite (openai_proxy_upstream_error _ _ (λ _, Return rate_limited) _
             request rate_limited); done.
Qed.




(** C9: when the upstream answers 200 and decoding the body as JSON fails,
    the failure is caught by [except Exception]: the handler returns no
    body and raises an [HTTPException] with status 500 whose detail begins
    with "Internal server error:". *)
Theorem C9_undecodable_body_is_500 (OPENAI_API_KEY : string)
    (OPENAI_API_URL : option string)
    (client_post : Post → result Response)
    (HTTPException_str : Z → string → string)
    (request : OpenAIRequest) (response : Response) (e : exn) :
  client_post (openai_post OPENAI_API_KEY OPENAI_API_URL request)
  = Return response →
  status_code response = 200%Z →
  Response_json response = Raise e →
  (∀ msg : string, e ≠ RequestError msg) →
  ∃ detail : string,
    (openai_proxy OPENAI_API_KEY OPENAI_API_URL client_post
       HTTPException_str request).1
    = Raise (HTTPException 500 detail) ∧
    detail = "Internal server error: " ++ exn_str HTTPException_str e ∧
    String.prefix "Internal server error:" detail = true.
Proof.
  intros Hpost Hstatus Hjson Hclass. eexists. split.
  - exact (openai_proxy_json_error _ _ _ _ _ _ _ Hpost Hstatus Hjson Hclass).
  - done.
Qed.

Lemma C9_undecodable_body_is_500_witness :
  ∃ detail : string,
    (openai_proxy "sk-test" (Some "https://upstream.example/v1/chat")
       (λ _, Return not_json) starlette_str sample_request).1
    = Raise (HTTPException 500 detail) ∧
    detail
    = "Internal server error: Expecting value: line 1 column 1 (char 0)" ∧
    String.prefix "Internal server error:" detail = true.
Proof.
  apply (C9_undecodable_body_is_500 "sk-test"
           (Some "https://upstream.example/v1/chat")
           (λ _, Return not_json) starlette_str sample_request not_json
           (OtherException "Expecting value: line 1 column 1 (char 0)"));
    [reflexivity|reflexivity|reflexivity|].
  intros msg. discriminate.
Defined.

(* ===================================================================== *)
(** * Further properties: identifiers *)
(* ===================================================================== *)

Section Identifiers.

Local Open Scope nat_scope.

Lemma hex_value_bound c t : hex_value c = Some t → (t < 16)%N.
Proof.
  destruct c as [[] [] [] [] [] [] [] []]; vm_compute;
    first [discriminate|by intros [= <-]].
Qed.

Lemma hexdigit_not_space c : is_hexdigit c = true → Py_ISSPACE c = false.
Proof. by destruct c as [[] [] [] [] [] [] [] []]. Qed.

(** A string of [2 * n] hexadecimal digits decodes to [n] bytes. *)
Lemma bytes_fromhex_digits n s :
  String.length s = 2 * n →
  string_forallb is_hexdigit s = true →
  ∃ bs, bytes_fromhex s = Some bs ∧ length bs = n.
Proof.
  revert s. induction n as [|n IH]; intros s Hlen Hhex.
  - destruct s; [by exists []|done].
  - destruct s as [|c [|d s]]; [done|cbn in Hlen; lia|].
    cbn [string_forallb] in Hhex.
    apply andb_prop in Hhex as [Hc [Hd Hs]%andb_prop].
    destruct (IH s) as (bs & Hbs & Hn); [cbn in Hlen; lia|done|].
    cbn [bytes_fromhex]. rewrite (hexdigit_not_space _ Hc).
    unfold is_hexdigit in Hc, Hd.
    destruct (hex_value c) as [top|] eqn:Htop; [|done].
    destruct (hex_value d) as [bot|] eqn:Hbot; [|done].
    apply hex_value_bound in Htop, Hbot.
    destruct (Byte.of_N (top * 16 + bot)) as [b|] eqn:Hb.
    + rewrite Hbs. exists (b :: bs). by rewrite <-Hn.
    + apply Byte.of_N_None_iff in Hb. lia.
Qed.

Lemma bytes_fromhex_pair b rest :
  bytes_fromhex
    (String (hexdigit (N.shiftr (Byte.to_N b) 4))
       (String (hexdigit (N.land (Byte.to_N b) 15)) rest))
  = match bytes_fromhex rest with
    | Some bs => Some (b :: bs)
    | None => None
    end.
Proof. by destruct b. Qed.

Lemma bytes_fromhex_hexlify bs : bytes_fromhex (hexlify bs) = Some bs.
Proof.
  induction bs as [|b bs IH]; [done|].
  cbn [hexlify]. by rewrite bytes_fromhex_pair, IH.
Qed.

Lemma length_hexlify bs : String.length (hexlify bs) = 2 * length bs.
Proof. induction bs as [|b bs IH]; [done|]. cbn. lia. Qed.

Lemma ObjectId_init_str oid :
  length oid = 12 → ObjectId_init (ObjectId_str oid) = Some oid.
Proof.
  intros Hlen. unfold ObjectId_init, ObjectId_str.
  rewrite length_hexlify, Hlen. cbn. apply bytes_fromhex_hexlify.
Qed.

Lemma ObjectId_init_digits _id :
  String.length _id = 24 →
  string_forallb is_hexdigit _id = true →
  ∃ oid : ObjectId, ObjectId_init _id = Some oid ∧ length oid = 12.
Proof.
  intros Hlen Hhex. unfold ObjectId_init. rewrite decide_True by done.
  by apply (bytes_fromhex_digits 12).
Qed.

End Identifiers.

(* ===================================================================== *)
(** * Further properties: the job details endpoint *)
(* ===================================================================== *)

Section JobDetailsMore.

Implicit Types (db : database) (oid : ObjectId) (R : gmap string value).

Lemma find_one_result oid db :
  (find_one oid db).1
  = match List.find (matches_id oid) (jobs db) with
    | Some doc => doc
    | None => PyNone
    end.
Proof. done. Qed.

Lemma matches_id_record oid doc :
  matches_id oid doc = true →
  ∃ R, doc = PyDict R ∧ R !! "_id" = Some (PyObjectId oid).
Proof.
  destruct doc as [| | | | | | | |R]; try done. cbn.
  destruct (R !! "_id") as [[]|] eqn:Hid; try done.
  intros Hoid%bool_decide_eq_true. subst. by exists R.
Qed.

Lemma get_job_details_invalid _id db :
  ObjectId_init _id = None →
  get_job_details _id db = (Raise (HTTPException 400 "Invalid job ID"), db).
Proof. intros Hinit. unfold get_job_details. by rewrite Hinit. Qed.

Lemma get_job_details_missing _id oid db :
  ObjectId_init _id = Some oid →
  List.find (matches_id oid) (jobs db) = None →
  get_job_details _id db
  = (Raise (HTTPException 404 "Job not found"), (find_one oid db).2).
Proof.
  intros Hinit Hfind. unfold get_job_details. rewrite Hinit.
  unfold find_one. by rewrite Hfind.
Qed.

(** The answer is computed from the stored documents alone. *)
Lemma get_job_details_jobs _id db1 db2 :
  jobs db1 = jobs db2 →
  (get_job_details _id db1).1 = (get_job_details _id db2).1.
Proof.
  intros Hjobs. unfold get_job_details.
  destruct (ObjectId_init _id) as [oid|]; [|done].
  unfold find_one. rewrite Hjobs.
  by destruct (negb (truthy _)).
Qed.

Lemma get_job_details_store _id db :
  (get_job_details _id db).2
  = {| jobs := jobs db;
       find_one_log :=
         (find_one_log db ++ option_list (ObjectId_init _id))%list |}.
Proof.
  unfold get_job_details.
  destruct (ObjectId_init _id) as [oid|]; cbn.
  - by destruct (negb (truthy _)).
  - rewrite app_nil_r. by destruct db.
Qed.

Lemma ObjectId_init_length _id oid :
  ObjectId_init _id = Some oid → String.length _id = 24%nat.
Proof. unfold ObjectId_init. by case_decide. Qed.

(** A returned body comes from a record that the query found. *)
Lemma get_job_details_returns _id db body :
  (get_job_details _id db).1 = Return body →
  ∃ oid R, ObjectId_init _id = Some oid ∧ (find_one oid db).1 = PyDict R.
Proof.
  destruct (ObjectId_init _id) as [oid|] eqn:Hinit;
    [|by rewrite get_job_details_invalid].
  destruct (List.find (matches_id oid) (jobs db)) as [doc|] eqn:Hfind;
    [|by rewrite (get_job_details_missing _ _ _ Hinit Hfind)].
  intros _. apply find_some in Hfind as Hdoc. destruct Hdoc as [_ Hmatch].
  apply matches_id_record in Hmatch as (R & -> & _).
  exists oid, R. by rewrite find_one_result, Hfind.
Qed.

End JobDetailsMore.

(** X1: every request to the endpoint ends in one of three ways, and which
    one is decided by the identifier and the stored documents: 400 when
    [ObjectId] rejects the path; 404 when it accepts it and no stored
    document has that [_id]; otherwise a body whose [job_id] is the string
    form of the identifier, for a stored document with that [_id].  No
    other exception, such as a [KeyError] from [job["_id"]], leaves the
    handler. *)
Theorem job_details_three_outcomes (_id : string) (db : database) :
  (ObjectId_init _id = None ∧
   (get_job_details _id db).1 = Raise (HTTPException 400 "Invalid job ID")) ∨
  (∃ oid : ObjectId,
      ObjectId_init _id = Some oid ∧
      (∀ doc : value, doc ∈ jobs db → matches_id oid doc = false) ∧
      (get_job_details _id db).1
      = Raise (HTTPException 404 "Job not found")) ∨
  (∃ (oid : ObjectId) (R : gmap string value) (body : value),
      ObjectId_init _id = Some oid ∧
      PyDict R ∈ jobs db ∧
      R !! "_id" = Some (PyObjectId oid) ∧
      (get_job_details _id db).1 = Return body ∧
      getitem body "job_id" = Return (PyStr (ObjectId_str oid))).
Proof.
  destruct (ObjectId_init _id) as [oid|] eqn:Hinit.
  - right.
    destruct (List.find (matches_id oid) (jobs db)) as [doc|] eqn:Hfind.
    + right. apply find_some in Hfind as Hdoc. destruct Hdoc as [Hin Hmatch].
      apply matches_id_record in Hmatch as (R & -> & Hid).
      eexists oid, R, _. split; [done|].
      split; [by apply list_elem_of_In|]. split; [done|].
      rewrite (get_job_details_found _id oid db R Hinit)
        by (by rewrite find_one_result, Hfind).
      done.
    + left. exists oid. split; [done|]. split.
      * intros doc Hdoc%list_elem_of_In.
        by apply (find_none _ _ Hfind).
      * by rewrite (get_job_details_missing _ _ _ Hinit Hfind).
  - left. by rewrite get_job_details_invalid.
Qed.

(** X2: the handler only reads: it leaves the stored documents as they
    are, adds at most one query to the log, and the answer to a request is
    the same whether or not another request was served before it. *)
Theorem job_details_read_only (_id : string) (db : database) :
  jobs (get_job_details _id db).2 = jobs db ∧
  (∃ new : list ObjectId,
      find_one_log (get_job_details _id db).2
      = (find_one_log db ++ new)%list ∧
      (length new ≤ 1)%nat) ∧
  ∀ _id' : string,
    (get_job_details _id' (get_job_details _id db).2).1
    = (get_job_details _id' db).1.
Proof.
  rewrite get_job_details_store. cbn [jobs find_one_log].
  split; [done|]. split.
  - eexists. split; [done|]. destruct (ObjectId_init _id); cbn; lia.
  - intros _id'. by apply get_job_details_jobs.
Qed.

(** X3: a body that the endpoint returns is a dict with exactly the keys
    [job_id], [title], [description] and [questions], whatever other fields
    the stored document has, and it holds no ObjectId at any depth. *)
Theorem job_details_body_shape (_id : string) (db : database)
    (body : value) :
  (get_job_details _id db).1 = Return body →
  (∃ m : gmap string value,
      body = PyDict m ∧
      dom m
      = ({[ "job_id"; "title"; "description"; "questions" ]} : gset string)) ∧
  no_objectid body.
Proof.
  intros Hbody.
  destruct (get_job_details_returns _ _ _ Hbody) as (oid & R & Hinit & Hfound).
  rewrite (get_job_details_found _ _ _ _ Hinit Hfound) in Hbody.
  cbn [fst] in Hbody. injection Hbody as <-. split.
  - eexists. split; [reflexivity|].
    rewrite !dom_insert_L, dom_singleton_L, !(assoc_L (∪)). reflexivity.
  - apply (proj2 (no_objectid_dict _)).
    apply map_Forall_insert_2; [exact I|].
    apply map_Forall_insert_2;
      [destruct (R !! "jobTitle");
       [apply convert_objectid_no_objectid|exact I]|].
    apply map_Forall_insert_2;
      [destruct (R !! "plainTextJobDescription");
       [apply convert_objectid_no_objectid|exact I]|].
    apply map_Forall_singleton.
    destruct (R !! "questions");
      [apply convert_objectid_no_objectid|exact I].
Qed.

Lemma job_details_body_shape_witness :
  ∃ body : value,
    (get_job_details "507f1f77bcf86cd799439011" sample_db).1 = Return body ∧
    (∃ m : gmap string value,
        body = PyDict m ∧
        dom m
        = ({[ "job_id"; "title"; "description"; "questions" ]}
             : gset string)) ∧
    no_objectid body.
Proof.
  eexists. split; [reflexivity|].
  apply (job_details_body_shape "507f1f77bcf86cd799439011" sample_db).
  reflexivity.
Defined.

(** X4: asking again with the [job_id] of an answer gives the same answer:
    for a path of hexadecimal digits that [ObjectId] accepts, the request
    for the string form of the identifier has the same outcome and leaves
    the same query in the log as the request for the path itself, however
    the digits of the path were capitalised. *)
Theorem job_details_canonical_path (_id : string) (oid : ObjectId)
    (db : database) :
  ObjectId_init _id = Some oid →
  string_forallb is_hexdigit _id = true →
  get_job_details (ObjectId_str oid) db = get_job_details _id db.
Proof.
  intros Hinit Hhex.
  destruct (ObjectId_init_digits _id (ObjectId_init_length _ _ Hinit) Hhex)
    as (oid' & Hinit' & Hlen).
  assert (oid' = oid) as -> by congruence.
  unfold get_job_details.
  by rewrite (ObjectId_init_str oid Hlen), Hinit.
Qed.

Lemma job_details_canonical_path_witness :
  get_job_details "507f1f77bcf86cd799439011" sample_db
  = get_job_details "507F1F77BCF86CD799439011" sample_db.
Proof.
  exact (job_details_canonical_path "507F1F77BCF86CD799439011" sample_oid
           sample_db eq_refl eq_refl).
Defined.

(** X5: a path parameter that the route hands to the handler (one segment
    of the path, not empty) and that is not 24 characters long is answered
    with 400 and reaches no query. *)
Theorem job_details_wrong_length (_id : string) (db : database) :
  path_parameter _id = true →
  String.length _id ≠ 24%nat →
  get_job_details _id db = (Raise (HTTPException 400 "Invalid job ID"), db) ∧
  http_status (get_job_details _id db).1 = 400%Z.
Proof.
  intros _ Hlen. rewrite get_job_details_invalid; [done|].
  unfold ObjectId_init. by rewrite decide_False.
Qed.

Lemma job_details_wrong_length_witness :
  get_job_details "507f1f77bcf86cd79943901" sample_db
  = (Raise (HTTPException 400 "Invalid job ID"), sample_db) ∧
  http_status (get_job_details "507f1f77bcf86cd79943901" sample_db).1
  = 400%Z.
Proof.
  apply (job_details_wrong_length "507f1f77bcf86cd79943901" sample_db).
  - reflexivity.
  - vm_compute. lia.
Defined.

(** X6: a path of 24 hexadecimal digits, in either case, is never answered
    with 400: it is parsed to a 12 byte identifier, exactly one query for
    that identifier is issued, and the handler returns a body or raises the
    404 of a job that is not found. *)
Theorem job_details_hex_path_accepted (_id : string) (db : database) :
  String.length _id = 24%nat →
  string_forallb is_hexdigit _id = true →
  ∃ oid : ObjectId,
    ObjectId_init _id = Some oid ∧
    length oid = 12%nat ∧
    find_one_log (get_job_details _id db).2
    = (find_one_log db ++ [oid])%list ∧
    ((∃ body : value, (get_job_details _id db).1 = Return body) ∨
     (get_job_details _id db).1
     = Raise (HTTPException 404 "Job not found")) ∧
    http_status (get_job_details _id db).1 ≠ 400%Z.
Proof.
  intros Hlen Hhex.
  destruct (ObjectId_init_digits _id Hlen Hhex) as (oid & Hinit & Hoid).
  exists oid. split; [exact Hinit|]. split; [exact Hoid|]. split.
  - rewrite get_job_details_store, Hinit. reflexivity.
  - destruct (List.find (matches_id oid) (jobs db)) as [doc|] eqn:Hfind.
    + apply find_some in Hfind as Hdoc. destruct Hdoc as [_ Hmatch].
      apply matches_id_record in Hmatch as (R & -> & _).
      rewrite (get_job_details_found _id oid db R Hinit)
        by (by rewrite find_one_result, Hfind).
      cbn [fst]. split; [left; by eexists|].
      unfold http_status. by destruct (json_content _).
    + rewrite (get_job_details_missing _ _ _ Hinit Hfind).
      split; [by right|done].
Qed.

Lemma job_details_hex_path_accepted_witness :
  ∃ oid : ObjectId,
    ObjectId_init "ABCDEFabcdef012345678901" = Some oid ∧
    length oid = 12%nat ∧
    find_one_log (get_job_details "ABCDEFabcdef012345678901" sample_db).2
    = ([] ++ [oid])%list ∧
    ((∃ body : value,
         (get_job_details "ABCDEFabcdef012345678901" sample_db).1
         = Return body) ∨
     (get_job_details "ABCDEFabcdef012345678901" sample_db).1
     = Raise (HTTPException 404 "Job not found")) ∧
    http_status (get_job_details "ABCDEFabcdef012345678901" sample_db).1
    ≠ 400%Z.
Proof.
  exact (job_details_hex_path_accepted "ABCDEFabcdef012345678901" sample_db
           eq_refl eq_refl).
Defined.

(* ===================================================================== *)
(** * Further properties: [convert_objectid] *)
(* ===================================================================== *)

(** X7: the result of [convert_objectid] holds no ObjectId, at any depth of
    lists and dicts. *)
Theorem convert_objectid_leaves_no_objectid (data : value) :
  no_objectid (convert_objectid data).
Proof. apply convert_objectid_no_objectid. Qed.

Lemma mapM_sound (f : value → option value) (g : value → value)
    (l k : list value) :
  (∀ v r, f v = Some r → r = g v) → mapM f l = Some k → k = g <$> l.
Proof.
  intros Hf. revert k. induction l as [|v l IH]; intros k; cbn.
  - by intros [= <-].
  - destruct (f v) as [r|] eqn:Hv; [|done]. cbn.
    destruct (mapM f l) as [k'|]; [|done]. cbn. intros [= <-].
    by rewrite (Hf _ _ Hv), (IH k').
Qed.

Lemma dict_comprehension_sound (f : value → option value)
    (g : value → value) (d d' : gmap string value) :
  (∀ v r, f v = Some r → r = g v) →
  dict_comprehension f d = Some d' → d' = g <$> d.
Proof.
  intros Hf. unfold dict_comprehension. revert d'.
  apply (map_fold_weak_ind (λ r m, ∀ d', r = Some d' → d' = g <$> m)).
  - intros d' [= <-]. by rewrite fmap_empty.
  - intros i x m r Hi IH d'.
    destruct (f x) as [y|] eqn:Hx; [|done]. cbn.
    destruct r as [m'|]; [|done]. cbn. intros [= <-].
    by rewrite (Hf _ _ Hx), (IH m' eq_refl), fmap_insert.
Qed.

(** X8: whatever bound is put on the call stack, a run of
    [convert_objectid] that is not cut off returns the value of the
    structural definition, so all runs that return agree. *)
Theorem convert_objectid_fuel_sound (fuel : nat) (data result : value) :
  convert_objectid_fuel fuel data = Some result →
  result = convert_objectid data.
Proof.
  revert data result. induction fuel as [|fuel IH]; intros data result;
    [done|].
  destruct data; cbn [convert_objectid_fuel convert_objectid];
    try (by intros [= <-]).
  - destruct (mapM _ l) as [k|] eqn:Hk; [|done]. cbn. intros [= <-].
    f_equal. by apply (mapM_sound _ _ _ _ IH).
  - destruct (dict_comprehension _ d) as [d'|] eqn:Hd; [|done]. cbn.
    intros [= <-]. f_equal. by apply (dict_comprehension_sound _ _ _ _ IH).
Qed.

Lemma convert_objectid_fuel_sound_witness :
  PyList [PyStr "507f1f77bcf86cd799439011"]
  = convert_objectid (PyList [PyObjectId sample_oid]).
Proof.
  apply (convert_objectid_fuel_sound 2 (PyList [PyObjectId sample_oid])).
  reflexivity.
Defined.

(* ===================================================================== *)
(** * Further properties: the OpenAI proxy endpoint and the start up *)
(* ===================================================================== *)

(** X9: the endpoint answers 200 or 500 and nothing else: it returns a
    body only when the upstream answered with status exactly 200 and that
    body was decoded from the answer, and in every other case (another
    status, a failed call, a failed decoding) it raises an [HTTPException]
    with status 500. *)
Theorem openai_proxy_two_outcomes (OPENAI_API_KEY : string)
    (OPENAI_API_URL : option string)
    (client_post : Post → result Response)
    (HTTPException_str : Z → string → string) (request : OpenAIRequest) :
  (∃ (response : Response) (body : value),
      client_post (openai_post OPENAI_API_KEY OPENAI_API_URL request)
      = Return response ∧
      status_code response = 200%Z ∧
      Response_json response = Return body ∧
      (openai_proxy OPENAI_API_KEY OPENAI_API_URL client_post
         HTTPException_str request).1 = Return body) ∨
  (∃ detail : string,
      (openai_proxy OPENAI_API_KEY OPENAI_API_URL client_post
         HTTPException_str request).1 = Raise (HTTPException 500 detail)).
Proof.
  unfold openai_proxy. cbn [fst].
  destruct (client_post _) as [response|e] eqn:Hpost; cbn.
  - destruct (status_code response =? 200)%Z eqn:Hstatus; cbn.
    + apply Z.eqb_eq in Hstatus.
      destruct (Response_json response) as [body|e] eqn:Hjson.
      * left. by exists response, body.
      * right. destruct e; by eexists.
    + right. by eexists.
  - right. destruct e; by eexists.
Qed.

(** X10: when [client.post] itself raises, the answer is 500: with the
    detail "Failed to connect to OpenAI API: ..." for an
    [httpx.RequestError], and with "Internal server error: ..." for any
    other exception. *)
Theorem openai_proxy_post_failure (OPENAI_API_KEY : string)
    (OPENAI_API_URL : option string)
    (client_post : Post → result Response)
    (HTTPException_str : Z → string → string) (request : OpenAIRequest)
    (e : exn) :
  client_post (openai_post OPENAI_API_KEY OPENAI_API_URL request)
  = Raise e →
  (openai_proxy OPENAI_API_KEY OPENAI_API_URL client_post
     HTTPException_str request).1
  = Raise (HTTPException 500
      match e with
      | RequestError msg => "Failed to connect to OpenAI API: " ++ msg
      | _ => "Internal server error: " ++ exn_str HTTPException_str e
      end).
Proof.
  intros Hpost. unfold openai_proxy. cbn [fst]. rewrite Hpost. cbn.
  by destruct e.
Qed.

Lemma openai_proxy_post_failure_witness :
  (openai_proxy "sk-test" None
     (λ _, Raise (RequestError "All connection attempts failed"))
     starlette_str sample_request).1
  = Raise (HTTPException 500
      "Failed to connect to OpenAI API: All connection attempts failed").
Proof.
  exact (openai_proxy_post_failure "sk-test" None
           (λ _, Raise (RequestError "All connection attempts failed"))
           starlette_str sample_request
           (RequestError "All connection attempts failed") eq_refl).
Defined.

Section Payload.

Lemma openai_payload_model request :
  getitem (openai_payload request) "model" = Return (PyStr (model request)).
Proof. reflexivity. Qed.

Lemma openai_payload_max_tokens request :
  getitem (openai_payload request) "max_tokens"
  = Return (PyInt (max_tokens request)).
Proof. reflexivity. Qed.

Lemma openai_payload_messages request :
  getitem (openai_payload request) "messages"
  = Return (PyList ((λ msg, PyDict {[ "role" := PyStr (role msg);
                                      "content" := PyStr (content msg) ]})
                      <$> messages request)).
Proof. reflexivity. Qed.

Lemma message_dict_inj (m1 m2 : Message) :
  PyDict {[ "role" := PyStr (role m1); "content" := PyStr (content m1) ]}
  = PyDict {[ "role" := PyStr (role m2); "content" := PyStr (content m2) ]} →
  m1 = m2.
Proof.
  intros Heq.
  assert (getitem (PyDict {[ "role" := PyStr (role m1);
                             "content" := PyStr (content m1) ]}) "role"
          = Return (PyStr (role m1))) as Hrole by reflexivity.
  assert (getitem (PyDict {[ "role" := PyStr (role m1);
                             "content" := PyStr (content m1) ]}) "content"
          = Return (PyStr (content m1))) as Hcontent by reflexivity.
  rewrite Heq in Hrole, Hcontent.
  change (Return (PyStr (role m2)) = Return (PyStr (role m1))) in Hrole.
  change (Return (PyStr (content m2)) = Return (PyStr (content m1)))
    in Hcontent.
  destruct m1, m2. cbn in *. congruence.
Qed.

Lemma message_dicts_inj (l1 l2 : list Message) :
  (λ msg, PyDict {[ "role" := PyStr (role msg);
                    "content" := PyStr (content msg) ]}) <$> l1
  = (λ msg, PyDict {[ "role" := PyStr (role msg);
                      "content" := PyStr (content msg) ]}) <$> l2 →
  l1 = l2.
Proof.
  revert l2. induction l1 as [|m1 l1 IH]; intros [|m2 l2]; try done.
  rewrite !fmap_cons. intros Heq.
  pose proof (f_equal (hd PyNone) Heq) as Hm.
  pose proof (f_equal (@tail value) Heq) as Hl. cbn [hd tail] in Hm, Hl.
  f_equal; [by apply message_dict_inj|by apply IH].
Qed.

End Payload.

(** X11: the payload keeps all of the request: two requests with the same
    outbound payload have the same model, the same token limit and the same
    messages in the same order. *)
Theorem openai_payload_inj (request1 request2 : OpenAIRequest) :
  openai_payload request1 = openai_payload request2 → request1 = request2.
Proof.
  intros Heq.
  pose proof (openai_payload_model request1) as Hmodel.
  pose proof (openai_payload_max_tokens request1) as Htokens.
  pose proof (openai_payload_messages request1) as Hmessages.
  rewrite Heq in Hmodel, Htokens, Hmessages.
  rewrite openai_payload_model in Hmodel.
  rewrite openai_payload_max_tokens in Htokens.
  rewrite openai_payload_messages in Hmessages.
  injection Hmodel as Hmodel. injection Htokens as Htokens.
  injection Hmessages as Hmessages. apply message_dicts_inj in Hmessages.
  destruct request1, request2. cbn in *. congruence.
Qed.

Lemma openai_payload_inj_witness :
  OpenAIRequest_init (Some "gpt-4o") (Some 1000%Z)
    [ {| role := "user"; content := "Hello" |} ]
  = sample_request.
Proof.
  apply (openai_payload_inj
           (OpenAIRequest_init (Some "gpt-4o") (Some 1000%Z)
              [ {| role := "user"; content := "Hello" |} ])
           sample_request).
  reflexivity.
Defined.

(** X12: the start up succeeds exactly when [OPENAI_API_KEY] is set to a
    string that is not empty, and it then keeps that key and whatever
    [OPENAI_API_URL] is, set or not; a key that is unset or empty stops it
    with the [RuntimeError]. *)
Theorem load_config_guard (environ : gmap string string) :
  (∃ key : string,
      environ !! "OPENAI_API_KEY" = Some key ∧
      key ≠ EmptyString ∧
      load_config environ = Return (key, environ !! "OPENAI_API_URL")) ∨
  ((environ !! "OPENAI_API_KEY" = None ∨
    environ !! "OPENAI_API_KEY" = Some EmptyString) ∧
   load_config environ
   = Raise (OtherException
              "❌ Missing OPENAI_API_KEY in environment variables")).
Proof.
  unfold load_config.
  destruct (environ !! "OPENAI_API_KEY") as [[|c key]|].
  - right. split; [by right|reflexivity].
  - left. exists (String c key). split; [reflexivity|].
    split; [discriminate|reflexivity].
  - right. split; [by left|reflexivity].
Qed.

(** X13: with the settings of a start up that succeeded, every outbound
    request of the proxy carries the header [Authorization] made of
    "Bearer " and the key of the environment, which is not empty, and goes
    to the [OPENAI_API_URL] of the environment. *)
Theorem started_proxy_sends_credential (environ : gmap string string)
    (key : string) (api_url : option string)
    (client_post : Post → result Response)
    (HTTPException_str : Z → string → string) (request : OpenAIRequest)
    (call : Post) :
  load_config environ = Return (key, api_url) →
  call ∈ (openai_proxy key api_url client_post HTTPException_str request).2 →
  environ !! "OPENAI_API_KEY" = Some key ∧
  key ≠ EmptyString ∧
  headers call !! "Authorization" = Some ("Bearer " ++ key) ∧
  url call = environ !! "OPENAI_API_URL".
Proof.
  intros Hload Hcall.
  apply list_elem_of_singleton in Hcall. subst call.
  unfold load_config in Hload.
  destruct (environ !! "OPENAI_API_KEY") as [[|c k]|]; try discriminate.
  cbn in Hload. injection Hload as <- <-.
  split; [reflexivity|]. split; [discriminate|].
  split; reflexivity.
Qed.

Lemma started_proxy_sends_credential_witness :
  sample_environ !! "OPENAI_API_KEY" = Some "sk-test" ∧
  "sk-test" ≠ EmptyString ∧
  headers (openai_post "sk-test" None sample_request) !! "Authorization"
  = Some "Bearer sk-test" ∧
  url (openai_post "sk-test" None sample_request)
  = sample_environ !! "OPENAI_API_URL".
Proof.
  apply (started_proxy_sends_credential sample_environ "sk-test" None
           (λ _, Return completion_abc) starlette_str sample_request
           (openai_post "sk-test" None sample_request)).
  - reflexivity.
  - apply list_elem_of_singleton. reflexivity.
Defined.
